(** * RFC 6464 RTP header extension (client-to-mixer audio level)

    A shallow embedding of
    [subprojects/gst-plugins-good/gst/rtpmanager/gstrtphdrext-rfc6464.c]
    and the properties of its negotiation and wire codec.

    C integers are integers of [Z] with the conversions written out,
    the [guint8 *data] region is a list of bytes indexed with stdpp's
    lookup and insert, and an access outside of the region (undefined
    behaviour in C) is the [None] of the option monad.  The element keeps
    its single field [vad]; the property notification of [set_vad] is a
    log next to it.  The [GST_*_OBJECT] log statements have no effect on
    the results and are left out. *)

From Stdlib Require Import ZArith Lia.
From stdpp Require Import base option list strings.

Local Open Scope Z_scope.

(** ** GLib scalar types *)

(** [gboolean] is a typedef of [gint]: every non-zero value is true. *)
Definition gboolean := Z.
Definition TRUE : gboolean := 1.
Definition FALSE : gboolean := 0.

Definition guint8 := Z.
Definition gsize := Z.
Definition gssize := Z.

(** Conversion of an [int] value to [guint8] (assignment to a [guint8]
    lvalue): reduction modulo 2^8. *)
Definition to_guint8 (x : Z) : guint8 := x mod 256.

(** The C truth value of an integer expression used as a condition. *)
Definition is_true_c (x : Z) : bool := negb (x =? 0).

(** The canonical [gboolean] of a boolean. *)
Definition gboolean_of_bool (b : bool) : gboolean := if b then TRUE else FALSE.

(** [g_str_equal]: byte-wise equality of two NUL-terminated strings. *)
Definition g_str_equal (a b : string) : bool := String.eqb a b.

(** ** Collaborators declared outside of the file *)

(** Modelled from the spec: the two forms of [GstRTPHeaderExtensionFlags]
    (OneByteForm, TwoByteForm), declared in gstrtphdrext.h, which the source
    combines with [|] and tests with [&]: two distinct bit flags. *)
Definition GstRTPHeaderExtensionFlags := Z.
Definition GST_RTP_HEADER_EXTENSION_ONE_BYTE : GstRTPHeaderExtensionFlags :=
  Z.shiftl 1 0.
Definition GST_RTP_HEADER_EXTENSION_TWO_BYTE : GstRTPHeaderExtensionFlags :=
  Z.shiftl 1 1.

Definition GstRTPHeaderExtensionDirection := Z.

(** Modelled from the spec: [GstAudioLevelMeta], declared in gstaudiometa.h:
    a [guint8 level] and a [gboolean voice_activity]. *)
Record GstAudioLevelMeta := {
  level : guint8;
  voice_activity : gboolean
}.

(** Modelled from the spec: a [GstBuffer], of which the codec sees only the
    audio-level metadata attached to it, in the order of attachment. *)
Definition GstBuffer := list GstAudioLevelMeta.

(** Modelled from the spec: [gst_buffer_get_audio_level_meta], the audio-level
    metadata attached to the frame, absent when there is none. *)
Definition gst_buffer_get_audio_level_meta (b : GstBuffer)
  : option GstAudioLevelMeta := head b.

(** Modelled from the spec: [gst_buffer_add_audio_level_meta], which attaches
    a new [GstAudioLevelMeta] with the given fields to the buffer. *)
Definition gst_buffer_add_audio_level_meta
    (b : GstBuffer) (lvl : guint8) (va : gboolean) : GstBuffer :=
  b ++ [ {| level := lvl; voice_activity := va |} ].

(** ** Memory of the [data] region *)

(** [data[i]] as an rvalue. *)
Definition load (data : list guint8) (i : nat) : option guint8 := data !! i.

(** [data[i] = v]. *)
Definition store (data : list guint8) (i : nat) (v : guint8)
  : option (list guint8) :=
  if decide (i < length data)%nat then Some (<[i:=v]> data) else None.

(** ** The element *)

Definition DEFAULT_VAD : gboolean := TRUE.

Record GstRTPHeaderExtensionRfc6464 := {
  vad : gboolean;
  (** properties notified with [g_object_notify], oldest first *)
  notified : list string
}.

Definition gst_rtp_header_extension_rfc6464_init
  : GstRTPHeaderExtensionRfc6464 :=
  {| vad := DEFAULT_VAD; notified := [] |}.

Definition PROP_0 : Z := 0.
Definition PROP_VAD : Z := 1.

(** [get_property]: the value stored into [value], none for an identifier
    that is not a property of the element (a warning in the source). *)
Definition gst_rtp_header_extension_rfc6464_get_property
    (self : GstRTPHeaderExtensionRfc6464) (prop_id : Z) : option gboolean :=
  if prop_id =? PROP_VAD then Some (vad self) else None.

Definition gst_rtp_header_extension_rfc6464_get_supported_flags
    (ext : GstRTPHeaderExtensionRfc6464) : GstRTPHeaderExtensionFlags :=
  Z.lor GST_RTP_HEADER_EXTENSION_ONE_BYTE GST_RTP_HEADER_EXTENSION_TWO_BYTE.

Definition gst_rtp_header_extension_rfc6464_get_max_size
    (ext : GstRTPHeaderExtensionRfc6464) (input_meta : option GstBuffer)
  : gsize := 2.

Definition set_vad (ext : GstRTPHeaderExtensionRfc6464) (v : gboolean)
  : GstRTPHeaderExtensionRfc6464 :=
  if vad ext =? v then ext
  else {| vad := v; notified := notified ext ++ ["vad"%string] |}.

Definition gst_rtp_header_extension_rfc6464_set_attributes
    (ext : GstRTPHeaderExtensionRfc6464)
    (direction : GstRTPHeaderExtensionDirection) (attributes : string)
  : gboolean * GstRTPHeaderExtensionRfc6464 :=
  if g_str_equal attributes "vad=on" || g_str_equal attributes "" then
    (TRUE, set_vad ext TRUE)
  else if g_str_equal attributes "vad=off" then
    (TRUE, set_vad ext FALSE)
  else
    (FALSE, ext).

(** The value of the local [vad] of
    [gst_rtp_header_extension_rfc6464_set_caps_from_attributes]: the
    attribute text that advertises the state. *)
Definition vad_attribute (self : GstRTPHeaderExtensionRfc6464) : string :=
  if is_true_c (vad self) then "vad=on" else "vad=off".

Section SetCaps.

(** [gst_rtp_header_extension_set_caps_from_attributes_helper] belongs to
    the base class; the element hands it the attribute text and returns
    what it returns. *)
Context {GstCaps : Type}.
Variable gst_rtp_header_extension_set_caps_from_attributes_helper :
  GstRTPHeaderExtensionRfc6464 -> GstCaps -> string -> gboolean * GstCaps.

Definition gst_rtp_header_extension_rfc6464_set_caps_from_attributes
    (ext : GstRTPHeaderExtensionRfc6464) (caps : GstCaps)
  : gboolean * GstCaps :=
  gst_rtp_header_extension_set_caps_from_attributes_helper
    ext caps (vad_attribute ext).

End SetCaps.

(** [write]: the result is the returned [gssize] and the [data] region
    after the call. [g_return_val_if_fail (c, -1)] returns [-1] when [c]
    is false. *)
Definition gst_rtp_header_extension_rfc6464_write
    (ext : GstRTPHeaderExtensionRfc6464) (input_meta : GstBuffer)
    (write_flags : GstRTPHeaderExtensionFlags) (output : GstBuffer)
    (data : list guint8) (size : gsize)
  : option (gssize * list guint8) :=
  if negb (gst_rtp_header_extension_rfc6464_get_max_size ext None <=? size)
  then Some (-1, data)
  else if negb (is_true_c
    (Z.land write_flags
       (gst_rtp_header_extension_rfc6464_get_supported_flags ext)))
  then Some (-1, data)
  else
    match gst_buffer_get_audio_level_meta input_meta with
    | None => Some (0, data)
    | Some meta =>
        let lvl := level meta in
        let lvl := if 127 <? lvl then 127 else lvl in
        (* the byte is computed from [meta->level], not from [lvl] *)
        data ← store data 0
          (to_guint8 (Z.lor (Z.land (level meta) 0x7F)
                            (Z.shiftl (voice_activity meta) 7)));
        if is_true_c (Z.land write_flags GST_RTP_HEADER_EXTENSION_ONE_BYTE)
        then Some (1, data)
        else
          data ← store data 1 0;
          Some (2, data)
    end.

(** [read]: the result is the returned [gboolean] and the buffer after the
    call. *)
Definition gst_rtp_header_extension_rfc6464_read
    (ext : GstRTPHeaderExtensionRfc6464)
    (read_flags : GstRTPHeaderExtensionFlags)
    (data : list guint8) (size : gsize) (buffer : GstBuffer)
  : option (gboolean * GstBuffer) :=
  if negb (is_true_c
    (Z.land read_flags
       (gst_rtp_header_extension_rfc6464_get_supported_flags ext)))
  then Some (-1, buffer)
  else
    d0 ← load data 0;
    let lvl := to_guint8 (Z.land d0 0x7F) in
    let va := Z.shiftr (Z.land d0 0x80) 7 in
    Some (TRUE, gst_buffer_add_audio_level_meta buffer lvl va).

(** ** Predicates of the statements *)

(** The call passes the guard on the requested form: the flags share a bit
    with the supported ones. *)
Definition supported_form (ext : GstRTPHeaderExtensionRfc6464)
    (flags : GstRTPHeaderExtensionFlags) : Prop :=
  Z.land flags (gst_rtp_header_extension_rfc6464_get_supported_flags ext) <> 0.

(** The number of bytes [write] produces for a supported form. *)
Definition written_size (write_flags : GstRTPHeaderExtensionFlags) : gssize :=
  if is_true_c (Z.land write_flags GST_RTP_HEADER_EXTENSION_ONE_BYTE)
  then 1 else 2.

(** Byte 0 of the wire value, as [write] computes it. *)
Definition wire_byte (meta : GstAudioLevelMeta) : guint8 :=
  to_guint8 (Z.lor (Z.land (level meta) 0x7F)
                   (Z.shiftl (voice_activity meta) 7)).

(** ** Sessions *)

(** The states of an element: the one [init] creates, and those reached from
    it by calls of [set_attributes], the only function of the file that
    writes [vad] (through [set_vad]). *)
Inductive negotiated : GstRTPHeaderExtensionRfc6464 -> Prop :=
| negotiated_init :
    negotiated gst_rtp_header_extension_rfc6464_init
| negotiated_set_attributes ext direction attributes :
    negotiated ext ->
    negotiated
      (gst_rtp_header_extension_rfc6464_set_attributes
         ext direction attributes).2.

(** * Running the code on the inputs of the specification *)

Example write_two_byte_42 :
  gst_rtp_header_extension_rfc6464_write gst_rtp_header_extension_rfc6464_init
    [ {| level := 42; voice_activity := FALSE |} ]
    GST_RTP_HEADER_EXTENSION_TWO_BYTE [] [0xAA; 0xBB] 2
  = Some (2, [0x2A; 0x00]).
Proof. reflexivity. Qed.

Example write_one_byte_42 :
  gst_rtp_header_extension_rfc6464_write gst_rtp_header_extension_rfc6464_init
    [ {| level := 42; voice_activity := FALSE |} ]
    GST_RTP_HEADER_EXTENSION_ONE_BYTE [] [0xAA; 0xBB] 2
  = Some (1, [0x2A; 0xBB]).
Proof. reflexivity. Qed.

Example read_0x85 :
  gst_rtp_header_extension_rfc6464_read gst_rtp_header_extension_rfc6464_init
    GST_RTP_HEADER_EXTENSION_ONE_BYTE [0x85] 1 []
  = Some (TRUE, [ {| level := 5; voice_activity := TRUE |} ]).
Proof. reflexivity. Qed.

(** * Bits of a byte *)

Lemma testbit_to_guint8 x i :
  0 <= i -> Z.testbit (to_guint8 x) i = (i <? 8) && Z.testbit x i.
Proof.
  intros Hi. unfold to_guint8. change 256 with (2 ^ 8).
  destruct (Z.ltb_spec i 8).
  - rewrite Z.mod_pow2_bits_low by lia. reflexivity.
  - rewrite Z.mod_pow2_bits_high by lia. reflexivity.
Qed.

Lemma testbit_0x7F i : 0 <= i -> Z.testbit 0x7F i = (i <? 7).
Proof.
  intros Hi. change 0x7F with (Z.ones 7).
  apply Z.testbit_ones_nonneg; lia.
Qed.

Lemma testbit_0x80 i : Z.testbit 0x80 i = (i =? 7).
Proof.
  change 0x80 with (2 ^ 7). rewrite Z.pow2_bits_eqb by lia.
  apply Z.eqb_sym.
Qed.

Lemma land_0x7F_bounds x : 0 <= Z.land x 0x7F <= 127.
Proof.
  assert (Z.land x 0x7F = x mod 128) as ->.
  { change 0x7F with (Z.ones 7). by rewrite Z.land_ones. }
  pose proof (Z.mod_pos_bound x 128). lia.
Qed.

Lemma land_0x7F_small x : 0 <= x <= 127 -> Z.land x 0x7F = x.
Proof.
  intros Hx. change 0x7F with (Z.ones 7). rewrite Z.land_ones by lia.
  apply Z.mod_small. change (2 ^ 7) with 128. lia.
Qed.

Lemma land_0x80 x : Z.land x 0x80 = if Z.testbit x 7 then 0x80 else 0.
Proof.
  apply Z.bits_inj'. intros i Hi. rewrite Z.land_spec, testbit_0x80.
  destruct (Z.eqb_spec i 7) as [->|Hne].
  - rewrite andb_true_r. destruct (Z.testbit x 7); reflexivity.
  - rewrite andb_false_r. destruct (Z.testbit x 7); [|by rewrite Z.bits_0].
    rewrite testbit_0x80. symmetry. by apply Z.eqb_neq.
Qed.

Lemma to_guint8_small x : 0 <= x <= 255 -> to_guint8 x = x.
Proof. intros Hx. apply Z.mod_small. lia. Qed.

(** The low seven bits of the wire byte are those of [meta->level],
    whatever the voice activity. *)
Lemma wire_byte_level meta :
  Z.land (wire_byte meta) 0x7F = Z.land (level meta) 0x7F.
Proof.
  unfold wire_byte. apply Z.bits_inj'. intros i Hi.
  rewrite !Z.land_spec, testbit_to_guint8, Z.lor_spec, Z.land_spec,
    testbit_0x7F by lia.
  destruct (Z.ltb_spec i 7).
  - rewrite Z.shiftl_spec_low by lia.
    destruct (Z.ltb_spec i 8); [|lia].
    destruct (Z.testbit (level meta) i); reflexivity.
  - rewrite !andb_false_r. reflexivity.
Qed.

(** Bit 7 of the wire byte is bit 0 of [meta->voice_activity]. *)
Lemma wire_byte_voice meta :
  Z.testbit (wire_byte meta) 7 = Z.testbit (voice_activity meta) 0.
Proof.
  unfold wire_byte.
  rewrite testbit_to_guint8, Z.lor_spec, Z.land_spec, testbit_0x7F by lia.
  rewrite Z.shiftl_spec by lia. change (7 - 7) with 0.
  change (7 <? 8) with true. change (7 <? 7) with false.
  by rewrite andb_false_r.
Qed.

Lemma wire_byte_range meta : 0 <= wire_byte meta <= 255.
Proof.
  unfold wire_byte, to_guint8.
  match goal with |- _ <= ?x mod 256 <= _ =>
    pose proof (Z.mod_pos_bound x 256) end.
  lia.
Qed.

(** What [read] extracts from a byte. *)
Lemma read_level_of_byte b :
  to_guint8 (Z.land b 0x7F) = Z.land b 0x7F.
Proof. apply to_guint8_small. pose proof (land_0x7F_bounds b). lia. Qed.

Lemma read_voice_of_byte b :
  Z.shiftr (Z.land b 0x80) 7 = gboolean_of_bool (Z.testbit b 7).
Proof. rewrite land_0x80. destruct (Z.testbit b 7); reflexivity. Qed.

(** * The [data] region *)

Lemma store_in_bounds data i v :
  (i < length data)%nat -> store data i v = Some (<[i:=v]> data).
Proof. intros Hi. unfold store. by rewrite decide_True. Qed.

Lemma load_store_0 (data : list guint8) v n :
  (0 < length data)%nat -> (0 < n)%nat ->
  load (take n (<[0%nat:=v]> data)) 0 = Some v.
Proof.
  intros Hd Hn. destruct data as [|d data]; [simpl in Hd; lia|].
  destruct n; [lia|]. reflexivity.
Qed.

(** * The guards *)

Lemma supported_form_guard ext flags :
  supported_form ext flags ->
  negb (is_true_c
    (Z.land flags (gst_rtp_header_extension_rfc6464_get_supported_flags ext)))
  = false.
Proof.
  unfold supported_form, is_true_c. intros H.
  rewrite negb_involutive. by apply Z.eqb_neq.
Qed.

Lemma max_size_guard ext size :
  2 <= size ->
  negb (gst_rtp_header_extension_rfc6464_get_max_size ext None <=? size)
  = false.
Proof.
  intros H. unfold gst_rtp_header_extension_rfc6464_get_max_size.
  apply negb_false_iff. by apply Z.leb_le.
Qed.

(** [write] on a frame that carries metadata, past both guards and in
    bounds: byte 0 is the wire byte, byte 1 is cleared in the two-byte
    form only. *)
Lemma write_with_meta ext input_meta meta write_flags output data size :
  gst_buffer_get_audio_level_meta input_meta = Some meta ->
  supported_form ext write_flags ->
  2 <= size <= Z.of_nat (length data) ->
  gst_rtp_header_extension_rfc6464_write
    ext input_meta write_flags output data size
  = Some (written_size write_flags,
          if is_true_c (Z.land write_flags GST_RTP_HEADER_EXTENSION_ONE_BYTE)
          then <[0%nat:=wire_byte meta]> data
          else <[1%nat:=0]> (<[0%nat:=wire_byte meta]> data)).
Proof.
  intros Hmeta Hflags Hsize.
  unfold gst_rtp_header_extension_rfc6464_write, written_size.
  rewrite max_size_guard, supported_form_guard, Hmeta by (done || lia).
  fold (wire_byte meta).
  rewrite store_in_bounds by lia. simpl.
  destruct (is_true_c _); [done|].
  rewrite store_in_bounds by (rewrite length_insert; lia). done.
Qed.

Lemma written_size_pos write_flags :
  written_size write_flags = 1 \/ written_size write_flags = 2.
Proof. unfold written_size. destruct (is_true_c _); auto. Qed.

(** [read] past its guard on a region whose first byte is [b]. *)
Lemma read_first_byte ext read_flags data b size buffer :
  supported_form ext read_flags ->
  load data 0 = Some b ->
  gst_rtp_header_extension_rfc6464_read ext read_flags data size buffer
  = Some (TRUE,
          buffer ++ [ {| level := Z.land b 0x7F;
                         voice_activity := gboolean_of_bool (Z.testbit b 7) |} ]).
Proof.
  intros Hflags Hload. unfold gst_rtp_header_extension_rfc6464_read.
  rewrite supported_form_guard, Hload by done. simpl.
  unfold gst_buffer_add_audio_level_meta.
  by rewrite read_level_of_byte, read_voice_of_byte.
Qed.

(** * Wire codec *)

(** C1: for a level in [0,127] and a boolean voice activity, [write] in the
    one-byte or the two-byte form followed by [read] of the bytes produced
    attaches a metadata with the same level and the same voice activity. *)
Theorem write_read_roundtrip
    ext ext' (lvl : guint8) (va : bool) (input_meta output buffer : GstBuffer)
    write_flags read_flags (data : list guint8) size :
  0 <= lvl <= 127 ->
  gst_buffer_get_audio_level_meta input_meta
    = Some {| level := lvl; voice_activity := gboolean_of_bool va |} ->
  supported_form ext write_flags ->
  supported_form ext' read_flags ->
  2 <= size <= Z.of_nat (length data) ->
  exists data',
    gst_rtp_header_extension_rfc6464_write
      ext input_meta write_flags output data size
    = Some (written_size write_flags, data') /\
    (written_size write_flags = 1 \/ written_size write_flags = 2) /\
    gst_rtp_header_extension_rfc6464_read ext' read_flags
      (take (Z.to_nat (written_size write_flags)) data')
      (written_size write_flags) buffer
    = Some (TRUE,
            buffer ++
              [ {| level := lvl; voice_activity := gboolean_of_bool va |} ]).
Proof.
  intros Hlvl Hmeta Hw Hr Hsize.
  set (meta := {| level := lvl; voice_activity := gboolean_of_bool va |}) in *.
  eexists. split; [by apply write_with_meta|].
  split; [apply written_size_pos|].
  assert (Hbyte : load
    (take (Z.to_nat (written_size write_flags))
       (if is_true_c (Z.land write_flags GST_RTP_HEADER_EXTENSION_ONE_BYTE)
        then <[0%nat:=wire_byte meta]> data
        else <[1%nat:=0]> (<[0%nat:=wire_byte meta]> data))) 0
    = Some (wire_byte meta)).
  { unfold written_size. destruct (is_true_c _).
    - apply load_store_0; [lia | simpl; lia].
    - destruct data as [|d0 [|d1 data]]; simpl in Hsize; [lia | lia |].
      reflexivity. }
  rewrite (read_first_byte _ _ _ _ _ _ Hr Hbyte).
  rewrite wire_byte_level, wire_byte_voice. subst meta. simpl.
  rewrite land_0x7F_small by done.
  by destruct va.
Qed.

Lemma write_read_roundtrip_witness :
  exists data',
    gst_rtp_header_extension_rfc6464_write
      gst_rtp_header_extension_rfc6464_init
      [ {| level := 42; voice_activity := gboolean_of_bool true |} ]
      GST_RTP_HEADER_EXTENSION_TWO_BYTE [] [0xAA; 0xBB; 0xCC] 3
    = Some (written_size GST_RTP_HEADER_EXTENSION_TWO_BYTE, data') /\
    (written_size GST_RTP_HEADER_EXTENSION_TWO_BYTE = 1 \/
     written_size GST_RTP_HEADER_EXTENSION_TWO_BYTE = 2) /\
    gst_rtp_header_extension_rfc6464_read
      gst_rtp_header_extension_rfc6464_init
      GST_RTP_HEADER_EXTENSION_ONE_BYTE
      (take (Z.to_nat (written_size GST_RTP_HEADER_EXTENSION_TWO_BYTE)) data')
      (written_size GST_RTP_HEADER_EXTENSION_TWO_BYTE) []
    = Some (TRUE,
            [] ++ [ {| level := 42;
                       voice_activity := gboolean_of_bool true |} ]).
Proof.
  apply (write_read_roundtrip
           gst_rtp_header_extension_rfc6464_init
           gst_rtp_header_extension_rfc6464_init
           42 true
           [ {| level := 42; voice_activity := gboolean_of_bool true |} ]
           [] [] GST_RTP_HEADER_EXTENSION_TWO_BYTE
           GST_RTP_HEADER_EXTENSION_ONE_BYTE [0xAA; 0xBB; 0xCC] 3).
  - split; discriminate.
  - reflexivity.
  - discriminate.
  - discriminate.
  - split; discriminate.
Defined.

(** C3: whatever the level of the metadata, [write] does not fail on its
    account, and the level carried in the low seven bits of byte 0 is at
    most 127. *)
Theorem write_level_at_most_127
    ext (meta : GstAudioLevelMeta) (input_meta output : GstBuffer)
    write_flags (data : list guint8) size :
  gst_buffer_get_audio_level_meta input_meta = Some meta ->
  supported_form ext write_flags ->
  2 <= size <= Z.of_nat (length data) ->
  exists n data' b,
    gst_rtp_header_extension_rfc6464_write
      ext input_meta write_flags output data size = Some (n, data') /\
    0 < n /\
    load data' 0 = Some b /\
    0 <= b <= 255 /\
    Z.land b 0x7F = Z.land (level meta) 0x7F /\
    0 <= Z.land b 0x7F <= 127.
Proof.
  intros Hmeta Hw Hsize.
  exists (written_size write_flags). eexists. exists (wire_byte meta).
  split; [by apply write_with_meta|].
  split; [destruct (written_size_pos write_flags); lia|].
  split.
  - destruct data as [|d0 [|d1 data]]; simpl in Hsize; [lia | lia |].
    by destruct (is_true_c _).
  - split; [apply wire_byte_range|].
    split; [apply wire_byte_level | apply land_0x7F_bounds].
Qed.

Lemma write_level_at_most_127_witness :
  exists n data' b,
    gst_rtp_header_extension_rfc6464_write
      gst_rtp_header_extension_rfc6464_init
      [ {| level := 255; voice_activity := TRUE |} ]
      GST_RTP_HEADER_EXTENSION_ONE_BYTE [] [0; 0] 2 = Some (n, data') /\
    0 < n /\
    load data' 0 = Some b /\
    0 <= b <= 255 /\
    Z.land b 0x7F = Z.land 255 0x7F /\
    0 <= Z.land b 0x7F <= 127.
Proof.
  apply (write_level_at_most_127
           gst_rtp_header_extension_rfc6464_init
           {| level := 255; voice_activity := TRUE |}
           [ {| level := 255; voice_activity := TRUE |} ] []
           GST_RTP_HEADER_EXTENSION_ONE_BYTE [0; 0] 2).
  - reflexivity.
  - discriminate.
  - split; discriminate.
Defined.

(** C4: with a supported form and a non-empty region, [read] succeeds on
    every value of byte 0 and attaches a new metadata with
    [level = b & 0x7F] and [voice_activity = ((b & 0x80) != 0)]. *)
Theorem read_every_byte
    ext read_flags (b : guint8) (rest : list guint8) size (buffer : GstBuffer) :
  0 <= b <= 255 ->
  supported_form ext read_flags ->
  gst_rtp_header_extension_rfc6464_read
    ext read_flags (b :: rest) size buffer
  = Some (TRUE,
          buffer ++
            [ {| level := Z.land b 0x7F;
                 voice_activity :=
                   gboolean_of_bool (negb (Z.land b 0x80 =? 0)) |} ]).
Proof.
  intros _ Hr.
  rewrite (read_first_byte ext read_flags (b :: rest) b size buffer Hr eq_refl).
  rewrite land_0x80. by destruct (Z.testbit b 7).
Qed.

Lemma read_every_byte_witness :
  gst_rtp_header_extension_rfc6464_read
    gst_rtp_header_extension_rfc6464_init
    GST_RTP_HEADER_EXTENSION_TWO_BYTE (0x85 :: [0]) 2 []
  = Some (TRUE,
          [] ++
            [ {| level := Z.land 0x85 0x7F;
                 voice_activity :=
                   gboolean_of_bool (negb (Z.land 0x85 0x80 =? 0)) |} ]).
Proof.
  apply (read_every_byte gst_rtp_header_extension_rfc6464_init
           GST_RTP_HEADER_EXTENSION_TWO_BYTE 0x85 [0] 2 []).
  - split; discriminate.
  - discriminate.
Defined.

(** C5: on a frame without audio-level metadata, with a supported form and
    room for [get_max_size] bytes, [write] returns 0 and leaves the region
    as it was. *)
Theorem write_without_meta
    ext (input_meta output : GstBuffer) write_flags (data : list guint8) size :
  gst_buffer_get_audio_level_meta input_meta = None ->
  supported_form ext write_flags ->
  gst_rtp_header_extension_rfc6464_get_max_size ext None <= size ->
  gst_rtp_header_extension_rfc6464_write
    ext input_meta write_flags output data size
  = Some (0, data).
Proof.
  intros Hmeta Hw Hsize. unfold gst_rtp_header_extension_rfc6464_write.
  by rewrite max_size_guard, supported_form_guard, Hmeta.
Qed.

Lemma write_without_meta_witness :
  gst_rtp_header_extension_rfc6464_write
    gst_rtp_header_extension_rfc6464_init
    [] GST_RTP_HEADER_EXTENSION_TWO_BYTE [] [0xAA; 0xBB] 2
  = Some (0, [0xAA; 0xBB]).
Proof.
  apply (write_without_meta gst_rtp_header_extension_rfc6464_init
           [] [] GST_RTP_HEADER_EXTENSION_TWO_BYTE [0xAA; 0xBB] 2).
  - reflexivity.
  - discriminate.
  - discriminate.
Defined.

(** C9: [write] and [read] do not depend on the [vad] flag of the element:
    two elements that differ in [vad] only return the same value, write the
    same bytes and attach the same metadata, on every input. *)
Theorem write_read_independent_of_vad
    (vad1 vad2 : gboolean) (log : list string)
    (input_meta output buffer : GstBuffer) flags (data : list guint8) size :
  gst_rtp_header_extension_rfc6464_write
    {| vad := vad1; notified := log |} input_meta flags output data size
  = gst_rtp_header_extension_rfc6464_write
      {| vad := vad2; notified := log |} input_meta flags output data size
  /\
  gst_rtp_header_extension_rfc6464_read
    {| vad := vad1; notified := log |} flags data size buffer
  = gst_rtp_header_extension_rfc6464_read
      {| vad := vad2; notified := log |} flags data size buffer.
Proof. split; reflexivity. Qed.

(** C10: on a region of at least one byte and with a supported form, [read]
    accesses byte 0 only: the access is in bounds, and the result is the one
    of [read] on the region cut after byte 0, whatever follows it and
    whatever [size] says. *)
Theorem read_only_byte_0
    ext read_flags (data : list guint8) size size' (buffer : GstBuffer) :
  supported_form ext read_flags ->
  (1 <= length data)%nat ->
  gst_rtp_header_extension_rfc6464_read ext read_flags data size buffer
    <> None /\
  gst_rtp_header_extension_rfc6464_read ext read_flags data size buffer
  = gst_rtp_header_extension_rfc6464_read
      ext read_flags (take 1 data) size' buffer.
Proof.
  intros Hr Hlen. destruct data as [|b rest]; [simpl in Hlen; lia|].
  rewrite (read_first_byte ext read_flags (b :: rest) b size buffer Hr eq_refl).
  split; [done|].
  symmetry. by apply read_first_byte.
Qed.

Lemma read_only_byte_0_witness :
  gst_rtp_header_extension_rfc6464_read
    gst_rtp_header_extension_rfc6464_init
    GST_RTP_HEADER_EXTENSION_TWO_BYTE [0x85; 0xFF] 2 [] <> None /\
  gst_rtp_header_extension_rfc6464_read
    gst_rtp_header_extension_rfc6464_init
    GST_RTP_HEADER_EXTENSION_TWO_BYTE [0x85; 0xFF] 2 []
  = gst_rtp_header_extension_rfc6464_read
      gst_rtp_header_extension_rfc6464_init
      GST_RTP_HEADER_EXTENSION_TWO_BYTE (take 1 [0x85; 0xFF]) 1 [].
Proof.
  apply (read_only_byte_0 gst_rtp_header_extension_rfc6464_init
           GST_RTP_HEADER_EXTENSION_TWO_BYTE [0x85; 0xFF] 2 1 []).
  - discriminate.
  - simpl. apply le_S, le_n.
Defined.

(** Without the precondition the access of [read] is out of bounds. *)
Example read_empty_region :
  gst_rtp_header_extension_rfc6464_read
    gst_rtp_header_extension_rfc6464_init
    GST_RTP_HEADER_EXTENSION_ONE_BYTE [] 0 [] = None.
Proof. reflexivity. Qed.

(** ** Where the code departs from the specification *)

(** A level of 128 or more loses its bit 7 on the wire: the seven bits
    written are [level - 128]. *)
Lemma wire_byte_level_wraps meta :
  128 <= level meta <= 255 ->
  Z.land (wire_byte meta) 0x7F = level meta - 128.
Proof.
  intros Hlvl. rewrite wire_byte_level.
  change 0x7F with (Z.ones 7). rewrite Z.land_ones by lia.
  change (2 ^ 7) with 128.
  symmetry. apply (Z.mod_unique_pos _ _ 1). lia. lia.
Qed.

(** C2: a level above 127 is not written as 127. The cropped value is kept
    in the local [level], and the byte is computed from [meta->level]: for
    level 128 byte 0 is [0x00], for level 127 it is [0x7F]. *)
Theorem write_level_128_not_cropped :
  gst_rtp_header_extension_rfc6464_write
    gst_rtp_header_extension_rfc6464_init
    [ {| level := 128; voice_activity := FALSE |} ]
    GST_RTP_HEADER_EXTENSION_ONE_BYTE [] [0xAA; 0xBB] 2
  = Some (1, [0x00; 0xBB]) /\
  gst_rtp_header_extension_rfc6464_write
    gst_rtp_header_extension_rfc6464_init
    [ {| level := 127; voice_activity := FALSE |} ]
    GST_RTP_HEADER_EXTENSION_ONE_BYTE [] [0xAA; 0xBB] 2
  = Some (1, [0x7F; 0xBB]).
Proof. split; reflexivity. Qed.

(** The guard of [read] on a form that shares no bit with the supported
    ones. *)
Lemma read_guard_unsupported ext read_flags data size (buffer : GstBuffer) :
  Z.land read_flags
    (gst_rtp_header_extension_rfc6464_get_supported_flags ext) = 0 ->
  gst_rtp_header_extension_rfc6464_read ext read_flags data size buffer
  = Some (-1, buffer).
Proof.
  intros Hflags. unfold gst_rtp_header_extension_rfc6464_read.
  by rewrite Hflags.
Qed.

(** C7: with a form outside of the supported ones the guard of [read]
    returns before any metadata is attached, but the value it returns is
    [-1], which is a true [gboolean], not [FALSE]. *)
Theorem read_unsupported_form_returns_true :
  gst_rtp_header_extension_rfc6464_read
    gst_rtp_header_extension_rfc6464_init 0 [0x85] 1 []
  = Some (-1, []) /\
  is_true_c (-1) = true /\
  -1 <> FALSE.
Proof. repeat split; (reflexivity || discriminate). Qed.

(** * Negotiation *)

Lemma vad_set_vad ext v : vad (set_vad ext v) = v.
Proof.
  unfold set_vad. destruct (Z.eqb_spec (vad ext) v) as [Heq|Hne]; simpl; done.
Qed.

(** [set_vad] notifies on a change of the field only. *)
Lemma notified_set_vad ext v :
  notified (set_vad ext v)
  = if decide (vad ext = v) then notified ext
    else notified ext ++ ["vad"%string].
Proof.
  unfold set_vad. destruct (Z.eqb_spec (vad ext) v) as [Heq|Hne].
  - by rewrite decide_True.
  - by rewrite decide_False.
Qed.

Lemma g_str_equal_true (a b : string) : a = b -> g_str_equal a b = true.
Proof. intros ->. apply String.eqb_refl. Qed.

Lemma g_str_equal_false (a b : string) : a <> b -> g_str_equal a b = false.
Proof. intros Hne. by apply String.eqb_neq. Qed.

(** C6: from every state of the element, [set_attributes] sets [vad] to
    [TRUE] on ["vad=on"] and on the empty text, sets it to [FALSE] on
    ["vad=off"], and on any other text returns [FALSE] with the element left
    as it was. *)
Theorem set_attributes_spec
    (ext : GstRTPHeaderExtensionRfc6464)
    (direction : GstRTPHeaderExtensionDirection) (attributes : string) :
  (attributes = "vad=on"%string \/ attributes = ""%string ->
     (gst_rtp_header_extension_rfc6464_set_attributes
        ext direction attributes).1 = TRUE /\
     vad (gst_rtp_header_extension_rfc6464_set_attributes
            ext direction attributes).2 = TRUE) /\
  (attributes = "vad=off"%string ->
     (gst_rtp_header_extension_rfc6464_set_attributes
        ext direction attributes).1 = TRUE /\
     vad (gst_rtp_header_extension_rfc6464_set_attributes
            ext direction attributes).2 = FALSE) /\
  (attributes <> "vad=on"%string -> attributes <> ""%string ->
   attributes <> "vad=off"%string ->
     (gst_rtp_header_extension_rfc6464_set_attributes
        ext direction attributes).1 = FALSE /\
     (gst_rtp_header_extension_rfc6464_set_attributes
        ext direction attributes).2 = ext).
Proof.
  unfold gst_rtp_header_extension_rfc6464_set_attributes.
  split; [|split].
  - intros [-> | ->]; simpl; by rewrite vad_set_vad.
  - intros ->. simpl. by rewrite vad_set_vad.
  - intros Hon Hempty Hoff.
    by rewrite !g_str_equal_false.
Qed.

Lemma set_attributes_spec_witness :
  ((gst_rtp_header_extension_rfc6464_set_attributes
      {| vad := FALSE; notified := [] |} 0 "").1 = TRUE /\
   vad (gst_rtp_header_extension_rfc6464_set_attributes
          {| vad := FALSE; notified := [] |} 0 "").2 = TRUE) /\
  ((gst_rtp_header_extension_rfc6464_set_attributes
      gst_rtp_header_extension_rfc6464_init 0 "vad=off").1 = TRUE /\
   vad (gst_rtp_header_extension_rfc6464_set_attributes
          gst_rtp_header_extension_rfc6464_init 0 "vad=off").2 = FALSE) /\
  ((gst_rtp_header_extension_rfc6464_set_attributes
      {| vad := FALSE; notified := [] |} 0 "garbage").1 = FALSE /\
   (gst_rtp_header_extension_rfc6464_set_attributes
      {| vad := FALSE; notified := [] |} 0 "garbage").2
   = {| vad := FALSE; notified := [] |}).
Proof.
  split; [|split].
  - refine (proj1 (set_attributes_spec
                     {| vad := FALSE; notified := [] |} 0 "") _).
    right. reflexivity.
  - refine (proj1 (proj2 (set_attributes_spec
                     gst_rtp_header_extension_rfc6464_init 0 "vad=off")) _).
    reflexivity.
  - refine (proj2 (proj2 (set_attributes_spec
                     {| vad := FALSE; notified := [] |} 0 "garbage")) _ _ _);
      discriminate.
Defined.

(** C8: [set_caps_from_attributes] advertises exactly ["vad=on"] when [vad]
    is true and exactly ["vad=off"] when it is false; the text is a function
    of [vad] alone, and after a successful [set_attributes] it is the text
    that was set, the empty text being advertised as ["vad=on"]. *)
Theorem set_caps_from_attributes_spec
    {GstCaps : Type}
    (helper : GstRTPHeaderExtensionRfc6464 -> GstCaps -> string ->
              gboolean * GstCaps)
    (ext : GstRTPHeaderExtensionRfc6464) (caps : GstCaps)
    (direction : GstRTPHeaderExtensionDirection) (attributes : string) :
  gst_rtp_header_extension_rfc6464_set_caps_from_attributes helper ext caps
    = helper ext caps (vad_attribute ext) /\
  vad_attribute ext
    = (if decide (vad ext = FALSE) then "vad=off" else "vad=on")%string /\
  (forall ext', vad ext' = vad ext -> vad_attribute ext' = vad_attribute ext) /\
  ((gst_rtp_header_extension_rfc6464_set_attributes
      ext direction attributes).1 = TRUE ->
   vad_attribute
     (gst_rtp_header_extension_rfc6464_set_attributes
        ext direction attributes).2
   = if decide (attributes = ""%string) then "vad=on"%string else attributes).
Proof.
  split; [reflexivity|]. split; [|split].
  - unfold vad_attribute, is_true_c.
    destruct (Z.eqb_spec (vad ext) 0) as [Heq|Hne].
    + by rewrite decide_True.
    + by rewrite decide_False.
  - intros ext' Heq. unfold vad_attribute. by rewrite Heq.
  - unfold gst_rtp_header_extension_rfc6464_set_attributes, g_str_equal.
    destruct (String.eqb_spec attributes "vad=on") as [->|Hon]; simpl.
    { intros _. unfold vad_attribute. by rewrite vad_set_vad. }
    destruct (String.eqb_spec attributes "") as [->|Hempty]; simpl.
    { intros _. unfold vad_attribute. by rewrite vad_set_vad. }
    destruct (String.eqb_spec attributes "vad=off") as [->|Hoff]; simpl.
    { intros _. unfold vad_attribute. by rewrite vad_set_vad. }
    intros Hret. unfold FALSE, TRUE in Hret. discriminate Hret.
Qed.

Lemma set_caps_from_attributes_spec_witness :
  vad_attribute
    (gst_rtp_header_extension_rfc6464_set_attributes
       {| vad := FALSE; notified := [] |} 0 "").2
  = "vad=on"%string.
Proof.
  refine (proj2 (proj2 (proj2 (set_caps_from_attributes_spec
    (fun _ (caps : list string) text => (TRUE, caps ++ [text]))
    {| vad := FALSE; notified := [] |} [] 0 ""))) _).
  reflexivity.
Defined.

(** * Further properties of [write] *)

Lemma land_flag_of_supported flags flag :
  Z.land (Z.lor GST_RTP_HEADER_EXTENSION_ONE_BYTE
                GST_RTP_HEADER_EXTENSION_TWO_BYTE) flag = flag ->
  Z.land flags flag <> 0 ->
  Z.land flags (Z.lor GST_RTP_HEADER_EXTENSION_ONE_BYTE
                      GST_RTP_HEADER_EXTENSION_TWO_BYTE) <> 0.
Proof.
  intros Hflag Hne Hzero. apply Hne.
  rewrite <- Hflag, Z.land_assoc, Hzero. apply Z.land_0_l.
Qed.

Lemma one_byte_supported ext flags :
  Z.land flags GST_RTP_HEADER_EXTENSION_ONE_BYTE <> 0 ->
  supported_form ext flags.
Proof. apply land_flag_of_supported. reflexivity. Qed.

Lemma two_byte_supported ext flags :
  Z.land flags GST_RTP_HEADER_EXTENSION_TWO_BYTE <> 0 ->
  supported_form ext flags.
Proof. apply land_flag_of_supported. reflexivity. Qed.

(** X1: The guards of [write] come first: a [size] below [get_max_size] or a
    form without a supported flag gives [-1] and leaves the region alone,
    with or without metadata on the frame. *)
Theorem write_guards_fail
    ext (input_meta output : GstBuffer) write_flags (data : list guint8) size :
  size < gst_rtp_header_extension_rfc6464_get_max_size ext None \/
  Z.land write_flags
    (gst_rtp_header_extension_rfc6464_get_supported_flags ext) = 0 ->
  gst_rtp_header_extension_rfc6464_write
    ext input_meta write_flags output data size
  = Some (-1, data).
Proof.
  intros Hguard. unfold gst_rtp_header_extension_rfc6464_write.
  destruct (Z.leb_spec
    (gst_rtp_header_extension_rfc6464_get_max_size ext None) size)
    as [Hle|Hlt]; simpl; [|done].
  destruct Hguard as [Hsize|Hflags]; [lia|].
  by rewrite Hflags.
Qed.

Lemma write_guards_fail_witness :
  gst_rtp_header_extension_rfc6464_write
    gst_rtp_header_extension_rfc6464_init
    [] GST_RTP_HEADER_EXTENSION_ONE_BYTE [] [0xAA] 1
  = Some (-1, [0xAA]).
Proof.
  apply (write_guards_fail gst_rtp_header_extension_rfc6464_init
           [] [] GST_RTP_HEADER_EXTENSION_ONE_BYTE [0xAA] 1).
  left. reflexivity.
Defined.

(** X2: On a region of two bytes or more every call of [write] stays in
    bounds; the value returned is between [-1] and [get_max_size], the
    region keeps its length, and the bytes from the returned count on are
    the ones that were there. *)
Theorem write_frame
    ext (input_meta output : GstBuffer) write_flags (data : list guint8) size :
  (2 <= length data)%nat ->
  exists n data',
    gst_rtp_header_extension_rfc6464_write
      ext input_meta write_flags output data size = Some (n, data') /\
    -1 <= n <= gst_rtp_header_extension_rfc6464_get_max_size ext None /\
    length data' = length data /\
    forall i : nat, (Z.to_nat n <= i)%nat -> data' !! i = data !! i.
Proof.
  intros Hlen. unfold gst_rtp_header_extension_rfc6464_write.
  unfold gst_rtp_header_extension_rfc6464_get_max_size.
  destruct (negb (2 <=? size)).
  { exists (-1), data. repeat split; (done || lia). }
  destruct (negb (is_true_c _)).
  { exists (-1), data. repeat split; (done || lia). }
  destruct (gst_buffer_get_audio_level_meta input_meta) as [meta|].
  2:{ exists 0, data. repeat split; (done || lia). }
  fold (wire_byte meta).
  rewrite store_in_bounds by lia. simpl.
  destruct (is_true_c _).
  - exists 1. eexists. split; [done|]. split; [lia|].
    split; [apply length_insert|].
    intros i Hi. apply list_lookup_insert_ne. lia.
  - rewrite store_in_bounds by (rewrite length_insert; lia). simpl.
    exists 2. eexists. split; [done|]. split; [lia|].
    split; [by rewrite !length_insert|].
    intros i Hi. rewrite !list_lookup_insert_ne by lia. done.
Qed.

Lemma write_frame_witness :
  exists n data',
    gst_rtp_header_extension_rfc6464_write
      gst_rtp_header_extension_rfc6464_init
      [ {| level := 42; voice_activity := TRUE |} ]
      GST_RTP_HEADER_EXTENSION_ONE_BYTE [] [0xAA; 0xBB; 0xCC] 3
    = Some (n, data') /\
    -1 <= n <= gst_rtp_header_extension_rfc6464_get_max_size
                 gst_rtp_header_extension_rfc6464_init None /\
    length data' = length [0xAA; 0xBB; 0xCC] /\
    forall i : nat,
      (Z.to_nat n <= i)%nat -> data' !! i = [0xAA; 0xBB; 0xCC] !! i.
Proof.
  apply (write_frame gst_rtp_header_extension_rfc6464_init
           [ {| level := 42; voice_activity := TRUE |} ] []
           GST_RTP_HEADER_EXTENSION_ONE_BYTE [0xAA; 0xBB; 0xCC] 3).
  simpl. apply le_S, le_n.
Defined.

(** X3: The one-byte flag decides the form: when it is set [write] returns 1
    and does not touch byte 1, also when the two-byte flag is set with it;
    when only the two-byte flag is set [write] returns 2 and clears byte 1. *)
Theorem write_form_choice
    ext (input_meta output : GstBuffer) meta write_flags
    (data : list guint8) size :
  gst_buffer_get_audio_level_meta input_meta = Some meta ->
  2 <= size <= Z.of_nat (length data) ->
  (Z.land write_flags GST_RTP_HEADER_EXTENSION_ONE_BYTE <> 0 ->
   exists data',
     gst_rtp_header_extension_rfc6464_write
       ext input_meta write_flags output data size = Some (1, data') /\
     data' !! 1%nat = data !! 1%nat) /\
  (Z.land write_flags GST_RTP_HEADER_EXTENSION_ONE_BYTE = 0 ->
   Z.land write_flags GST_RTP_HEADER_EXTENSION_TWO_BYTE <> 0 ->
   exists data',
     gst_rtp_header_extension_rfc6464_write
       ext input_meta write_flags output data size = Some (2, data') /\
     data' !! 1%nat = Some 0).
Proof.
  intros Hmeta Hsize. split.
  - intros Hone. eexists.
    rewrite (write_with_meta _ _ _ _ _ _ _ Hmeta
               (one_byte_supported ext _ Hone) Hsize).
    unfold written_size, is_true_c.
    destruct (Z.eqb_spec
      (Z.land write_flags GST_RTP_HEADER_EXTENSION_ONE_BYTE) 0); [done|].
    simpl. split; [done|]. by apply list_lookup_insert_ne.
  - intros Hone Htwo. eexists.
    rewrite (write_with_meta _ _ _ _ _ _ _ Hmeta
               (two_byte_supported ext _ Htwo) Hsize).
    unfold written_size, is_true_c. rewrite Hone. simpl.
    split; [done|]. apply list_lookup_insert_eq.
    rewrite length_insert. unfold guint8 in *. lia.
Qed.

Lemma write_form_choice_witness :
  (exists data',
     gst_rtp_header_extension_rfc6464_write
       gst_rtp_header_extension_rfc6464_init
       [ {| level := 42; voice_activity := FALSE |} ]
       (Z.lor GST_RTP_HEADER_EXTENSION_ONE_BYTE
              GST_RTP_HEADER_EXTENSION_TWO_BYTE) [] [0xAA; 0xBB] 2
     = Some (1, data') /\
     data' !! 1%nat = [0xAA; 0xBB] !! 1%nat) /\
  (exists data',
     gst_rtp_header_extension_rfc6464_write
       gst_rtp_header_extension_rfc6464_init
       [ {| level := 42; voice_activity := FALSE |} ]
       GST_RTP_HEADER_EXTENSION_TWO_BYTE [] [0xAA; 0xBB] 2
     = Some (2, data') /\
     data' !! 1%nat = Some 0).
Proof.
  split.
  - refine (proj1 (write_form_choice
      gst_rtp_header_extension_rfc6464_init
      [ {| level := 42; voice_activity := FALSE |} ] []
      {| level := 42; voice_activity := FALSE |}
      (Z.lor GST_RTP_HEADER_EXTENSION_ONE_BYTE
             GST_RTP_HEADER_EXTENSION_TWO_BYTE)
      [0xAA; 0xBB] 2 eq_refl _) _).
    + split; discriminate.
    + discriminate.
  - refine (proj2 (write_form_choice
      gst_rtp_header_extension_rfc6464_init
      [ {| level := 42; voice_activity := FALSE |} ] []
      {| level := 42; voice_activity := FALSE |}
      GST_RTP_HEADER_EXTENSION_TWO_BYTE
      [0xAA; 0xBB] 2 eq_refl _) _ _).
    + split; discriminate.
    + reflexivity.
    + discriminate.
Defined.

(** * Further properties of the wire codec *)

(** A byte is its low seven bits plus 128 times its bit 7. *)
Lemma byte_split x :
  0 <= x <= 255 -> x = Z.land x 0x7F + 128 * Z.b2z (Z.testbit x 7).
Proof.
  intros Hx.
  assert (Hlow : Z.land x 0x7F = x mod 128).
  { change 0x7F with (Z.ones 7). by rewrite Z.land_ones. }
  assert (Hhigh : Z.testbit x 7 = Z.odd (x / 128)).
  { rewrite Z.testbit_odd, Z.shiftr_div_pow2 by lia. reflexivity. }
  rewrite Hlow, Hhigh.
  pose proof (Z.div_mod x 128) as Hdm.
  pose proof (Z.mod_pos_bound x 128) as Hmod.
  assert (Hq : x / 128 = 0 \/ x / 128 = 1) by lia.
  destruct Hq as [Hq|Hq]; rewrite Hq in *; simpl Z.b2z; lia.
Qed.

(** Two bytes with the same low seven bits and the same bit 7 are equal. *)
Lemma byte_eq x y :
  0 <= x <= 255 -> 0 <= y <= 255 ->
  Z.land x 0x7F = Z.land y 0x7F -> Z.testbit x 7 = Z.testbit y 7 -> x = y.
Proof.
  intros Hx Hy Hlow Hhigh.
  rewrite (byte_split x Hx), (byte_split y Hy). by rewrite Hlow, Hhigh.
Qed.

Lemma testbit_0_gboolean_of_bool b : Z.testbit (gboolean_of_bool b) 0 = b.
Proof. by destruct b. Qed.

(** The bytes [write] hands over start with the wire byte. *)
Lemma load_written_byte write_flags (data : list guint8) v :
  (2 <= length data)%nat ->
  load
    (take (Z.to_nat (written_size write_flags))
       (if is_true_c (Z.land write_flags GST_RTP_HEADER_EXTENSION_ONE_BYTE)
        then <[0%nat:=v]> data
        else <[1%nat:=0]> (<[0%nat:=v]> data))) 0
  = Some v.
Proof.
  intros Hlen. destruct data as [|d0 [|d1 data]]; simpl in Hlen; [lia | lia |].
  unfold written_size. by destruct (is_true_c _).
Qed.

(** X4: What survives [write] followed by [read], for any metadata: the low
    seven bits of the level and bit 0 of the voice activity. A level of 128
    or more comes back reduced by 128, and a voice activity that is true
    with bit 0 clear comes back as [FALSE]. *)
Theorem write_read_keeps_low_bits
    ext ext' (meta : GstAudioLevelMeta) (input_meta output buffer : GstBuffer)
    write_flags read_flags (data : list guint8) size :
  gst_buffer_get_audio_level_meta input_meta = Some meta ->
  supported_form ext write_flags ->
  supported_form ext' read_flags ->
  2 <= size <= Z.of_nat (length data) ->
  exists data',
    gst_rtp_header_extension_rfc6464_write
      ext input_meta write_flags output data size
    = Some (written_size write_flags, data') /\
    gst_rtp_header_extension_rfc6464_read ext' read_flags
      (take (Z.to_nat (written_size write_flags)) data')
      (written_size write_flags) buffer
    = Some (TRUE,
            buffer ++
              [ {| level := Z.land (level meta) 0x7F;
                   voice_activity :=
                     gboolean_of_bool
                       (Z.testbit (voice_activity meta) 0) |} ]).
Proof.
  intros Hmeta Hw Hr Hsize.
  eexists. split; [by apply write_with_meta|].
  rewrite (read_first_byte ext' read_flags _ (wire_byte meta) _ buffer Hr)
    by (apply load_written_byte; lia).
  by rewrite wire_byte_level, wire_byte_voice.
Qed.

Lemma write_read_keeps_low_bits_witness :
  exists data',
    gst_rtp_header_extension_rfc6464_write
      gst_rtp_header_extension_rfc6464_init
      [ {| level := 200; voice_activity := 2 |} ]
      GST_RTP_HEADER_EXTENSION_TWO_BYTE [] [0xAA; 0xBB] 2
    = Some (written_size GST_RTP_HEADER_EXTENSION_TWO_BYTE, data') /\
    gst_rtp_header_extension_rfc6464_read
      gst_rtp_header_extension_rfc6464_init
      GST_RTP_HEADER_EXTENSION_TWO_BYTE
      (take (Z.to_nat (written_size GST_RTP_HEADER_EXTENSION_TWO_BYTE)) data')
      (written_size GST_RTP_HEADER_EXTENSION_TWO_BYTE) []
    = Some (TRUE,
            [] ++
              [ {| level := Z.land 200 0x7F;
                   voice_activity :=
                     gboolean_of_bool (Z.testbit 2 0) |} ]).
Proof.
  apply (write_read_keeps_low_bits
           gst_rtp_header_extension_rfc6464_init
           gst_rtp_header_extension_rfc6464_init
           {| level := 200; voice_activity := 2 |}
           [ {| level := 200; voice_activity := 2 |} ] [] []
           GST_RTP_HEADER_EXTENSION_TWO_BYTE
           GST_RTP_HEADER_EXTENSION_TWO_BYTE [0xAA; 0xBB] 2).
  - reflexivity.
  - discriminate.
  - discriminate.
  - split; discriminate.
Defined.

(** X5: [read] followed by [write] gives the byte back: for every byte [b],
    [write] on the frame that [read] filled from [b] stores [b] as
    byte 0. *)
Theorem read_write_roundtrip
    ext ext' (b : guint8) (rest : list guint8) rsize (output : GstBuffer)
    read_flags write_flags (data : list guint8) size :
  0 <= b <= 255 ->
  supported_form ext read_flags ->
  supported_form ext' write_flags ->
  2 <= size <= Z.of_nat (length data) ->
  exists frame data',
    gst_rtp_header_extension_rfc6464_read ext read_flags (b :: rest) rsize []
    = Some (TRUE, frame) /\
    gst_rtp_header_extension_rfc6464_write
      ext' frame write_flags output data size
    = Some (written_size write_flags, data') /\
    load data' 0 = Some b.
Proof.
  intros Hb Hr Hw Hsize.
  set (meta := {| level := Z.land b 0x7F;
                  voice_activity := gboolean_of_bool (Z.testbit b 7) |}).
  exists [meta]. eexists.
  split; [by apply (read_first_byte ext read_flags (b :: rest) b rsize [])|].
  split; [by apply (write_with_meta ext' [meta] meta)|].
  assert (Hbyte : wire_byte meta = b).
  { apply byte_eq; [apply wire_byte_range | done | |].
    - rewrite wire_byte_level. simpl.
      apply land_0x7F_small, land_0x7F_bounds.
    - rewrite wire_byte_voice. apply testbit_0_gboolean_of_bool. }
  rewrite Hbyte.
  destruct data as [|d0 [|d1 data]]; simpl in Hsize; [lia | lia |].
  by destruct (is_true_c _).
Qed.

Lemma read_write_roundtrip_witness :
  exists frame data',
    gst_rtp_header_extension_rfc6464_read
      gst_rtp_header_extension_rfc6464_init
      GST_RTP_HEADER_EXTENSION_ONE_BYTE (0x85 :: []) 1 []
    = Some (TRUE, frame) /\
    gst_rtp_header_extension_rfc6464_write
      gst_rtp_header_extension_rfc6464_init
      frame GST_RTP_HEADER_EXTENSION_TWO_BYTE [] [0xAA; 0xBB] 2
    = Some (written_size GST_RTP_HEADER_EXTENSION_TWO_BYTE, data') /\
    load data' 0 = Some 0x85.
Proof.
  apply (read_write_roundtrip
           gst_rtp_header_extension_rfc6464_init
           gst_rtp_header_extension_rfc6464_init
           0x85 [] 1 []
           GST_RTP_HEADER_EXTENSION_ONE_BYTE
           GST_RTP_HEADER_EXTENSION_TWO_BYTE [0xAA; 0xBB] 2).
  - split; discriminate.
  - discriminate.
  - discriminate.
  - split; discriminate.
Defined.

(** X6: The layout of byte 0: for a level of at most 127 and a canonical voice
    activity the byte [write] stores is the level, plus 128 when there is
    voice activity. *)
Theorem write_byte_0_layout
    ext (lvl : guint8) (va : bool) (input_meta output : GstBuffer)
    write_flags (data : list guint8) size :
  0 <= lvl <= 127 ->
  gst_buffer_get_audio_level_meta input_meta
    = Some {| level := lvl; voice_activity := gboolean_of_bool va |} ->
  supported_form ext write_flags ->
  2 <= size <= Z.of_nat (length data) ->
  exists data',
    gst_rtp_header_extension_rfc6464_write
      ext input_meta write_flags output data size
    = Some (written_size write_flags, data') /\
    load data' 0 = Some (lvl + 128 * Z.b2z va).
Proof.
  intros Hlvl Hmeta Hw Hsize.
  set (meta := {| level := lvl; voice_activity := gboolean_of_bool va |}) in *.
  eexists. split; [by apply write_with_meta|].
  assert (Hbyte : wire_byte meta = lvl + 128 * Z.b2z va).
  { rewrite (byte_split (wire_byte meta) (wire_byte_range meta)).
    rewrite wire_byte_level, wire_byte_voice. subst meta.
    cbn [level voice_activity].
    by rewrite land_0x7F_small, testbit_0_gboolean_of_bool. }
  rewrite <- Hbyte.
  destruct data as [|d0 [|d1 data]]; simpl in Hsize; [lia | lia |].
  by destruct (is_true_c _).
Qed.

Lemma write_byte_0_layout_witness :
  exists data',
    gst_rtp_header_extension_rfc6464_write
      gst_rtp_header_extension_rfc6464_init
      [ {| level := 5; voice_activity := gboolean_of_bool true |} ]
      GST_RTP_HEADER_EXTENSION_ONE_BYTE [] [0xAA; 0xBB] 2
    = Some (written_size GST_RTP_HEADER_EXTENSION_ONE_BYTE, data') /\
    load data' 0 = Some (5 + 128 * Z.b2z true).
Proof.
  apply (write_byte_0_layout gst_rtp_header_extension_rfc6464_init
           5 true
           [ {| level := 5; voice_activity := gboolean_of_bool true |} ] []
           GST_RTP_HEADER_EXTENSION_ONE_BYTE [0xAA; 0xBB] 2).
  - split; discriminate.
  - reflexivity.
  - discriminate.
  - split; discriminate.
Defined.

(** X7: Whatever the region holds, the metadata [read] attaches is in range:
    a level between 0 and 127 and a voice activity that is [TRUE] or
    [FALSE]; it is attached after the metadata the buffer had, which stay. *)
Theorem read_attaches_in_range
    ext read_flags (data : list guint8) size (buffer : GstBuffer) :
  supported_form ext read_flags ->
  (1 <= length data)%nat ->
  exists meta,
    gst_rtp_header_extension_rfc6464_read ext read_flags data size buffer
    = Some (TRUE, buffer ++ [meta]) /\
    0 <= level meta <= 127 /\
    (voice_activity meta = TRUE \/ voice_activity meta = FALSE).
Proof.
  intros Hr Hlen. destruct data as [|b rest]; [simpl in Hlen; lia|].
  exists {| level := Z.land b 0x7F;
            voice_activity := gboolean_of_bool (Z.testbit b 7) |}.
  split; [by apply (read_first_byte ext read_flags (b :: rest) b)|].
  cbn [level voice_activity]. split; [apply land_0x7F_bounds|].
  destruct (Z.testbit b 7); auto.
Qed.

Lemma read_attaches_in_range_witness :
  exists meta,
    gst_rtp_header_extension_rfc6464_read
      gst_rtp_header_extension_rfc6464_init
      GST_RTP_HEADER_EXTENSION_ONE_BYTE [1000] 1
      [ {| level := 3; voice_activity := FALSE |} ]
    = Some (TRUE, [ {| level := 3; voice_activity := FALSE |} ] ++ [meta]) /\
    0 <= level meta <= 127 /\
    (voice_activity meta = TRUE \/ voice_activity meta = FALSE).
Proof.
  apply (read_attaches_in_range gst_rtp_header_extension_rfc6464_init
           GST_RTP_HEADER_EXTENSION_ONE_BYTE [1000] 1
           [ {| level := 3; voice_activity := FALSE |} ]).
  - discriminate.
  - simpl. apply le_n.
Defined.

(** * Further properties of the negotiation *)

Lemma set_vad_idempotent ext v : set_vad (set_vad ext v) v = set_vad ext v.
Proof.
  unfold set_vad at 2 3.
  destruct (Z.eqb_spec (vad ext) v) as [Heq|Hne].
  - unfold set_vad. by rewrite (proj2 (Z.eqb_eq _ _) Heq).
  - unfold set_vad. simpl. by rewrite Z.eqb_refl.
Qed.

Lemma set_vad_change ext v :
  set_vad ext v
  = if decide (v = vad ext) then ext
    else {| vad := v; notified := notified ext ++ ["vad"%string] |}.
Proof.
  unfold set_vad. destruct (Z.eqb_spec (vad ext) v) as [Heq|Hne].
  - by rewrite decide_True.
  - by rewrite decide_False.
Qed.

(** The three branches of [set_attributes]. *)
Lemma set_attributes_cases ext direction attributes :
  gst_rtp_header_extension_rfc6464_set_attributes ext direction attributes
    = (TRUE, set_vad ext TRUE) \/
  gst_rtp_header_extension_rfc6464_set_attributes ext direction attributes
    = (TRUE, set_vad ext FALSE) \/
  gst_rtp_header_extension_rfc6464_set_attributes ext direction attributes
    = (FALSE, ext).
Proof.
  unfold gst_rtp_header_extension_rfc6464_set_attributes.
  destruct (_ || _); [by left|].
  destruct (g_str_equal _ _); [right; by left | right; by right].
Qed.

Lemma negotiated_vad_canonical ext :
  negotiated ext -> vad ext = TRUE \/ vad ext = FALSE.
Proof.
  induction 1 as [|ext direction attributes Hneg IH]; [by left|].
  destruct (set_attributes_cases ext direction attributes)
    as [-> | [-> | ->]]; simpl; rewrite ?vad_set_vad; auto.
Qed.

(** X8: A second [set_attributes] with the same text changes nothing and
    notifies nothing: it returns what the first call returned and leaves the
    element, notification log included, as the first call left it. *)
Theorem set_attributes_idempotent
    (ext : GstRTPHeaderExtensionRfc6464)
    (direction direction' : GstRTPHeaderExtensionDirection)
    (attributes : string) :
  gst_rtp_header_extension_rfc6464_set_attributes
    (gst_rtp_header_extension_rfc6464_set_attributes
       ext direction attributes).2 direction' attributes
  = gst_rtp_header_extension_rfc6464_set_attributes ext direction attributes.
Proof.
  unfold gst_rtp_header_extension_rfc6464_set_attributes.
  destruct (_ || _); simpl; [by rewrite set_vad_idempotent|].
  destruct (g_str_equal _ _); simpl; [by rewrite set_vad_idempotent|done].
Qed.

(** X9: [set_attributes] notifies ["vad"] exactly when it changes the field:
    if [vad] comes out as it was, the element is untouched; otherwise the
    log gains one ["vad"] entry and nothing else changes. *)
Theorem set_attributes_notifies_on_change
    (ext : GstRTPHeaderExtensionRfc6464)
    (direction : GstRTPHeaderExtensionDirection) (attributes : string) :
  (gst_rtp_header_extension_rfc6464_set_attributes
     ext direction attributes).2
  = if decide
         (vad (gst_rtp_header_extension_rfc6464_set_attributes
                 ext direction attributes).2 = vad ext)
    then ext
    else {| vad := vad (gst_rtp_header_extension_rfc6464_set_attributes
                          ext direction attributes).2;
            notified := notified ext ++ ["vad"%string] |}.
Proof.
  destruct (set_attributes_cases ext direction attributes)
    as [-> | [-> | ->]]; simpl.
  - rewrite vad_set_vad. apply set_vad_change.
  - rewrite vad_set_vad. apply set_vad_change.
  - by rewrite decide_True.
Qed.

(** X10: In every state reached from [init] by [set_attributes] calls, [vad] is
    [TRUE] or [FALSE], the log holds ["vad"] entries only, and [vad] is
    [TRUE] exactly when the number of notifications is even: each
    notification stands for one flip of the flag from its default. *)
Theorem negotiated_invariant (ext : GstRTPHeaderExtensionRfc6464) :
  negotiated ext ->
  (vad ext = TRUE \/ vad ext = FALSE) /\
  Forall (eq "vad"%string) (notified ext) /\
  vad ext = gboolean_of_bool (Nat.even (length (notified ext))).
Proof.
  intros Hneg. split; [by apply negotiated_vad_canonical|].
  induction Hneg as [|ext direction attributes Hneg [IHlog IHpar]].
  { split; [constructor | reflexivity]. }
  pose proof (negotiated_vad_canonical ext Hneg) as Hcan.
  assert (Hstep : forall v, v = TRUE \/ v = FALSE ->
    Forall (eq "vad"%string) (notified (set_vad ext v)) /\
    vad (set_vad ext v)
    = gboolean_of_bool (Nat.even (length (notified (set_vad ext v))))).
  { intros v Hv. rewrite vad_set_vad, notified_set_vad.
    destruct (decide (vad ext = v)) as [Heq|Hne].
    - split; [done | congruence].
    - split; [apply Forall_app; split; [done | by constructor]|].
      rewrite length_app, Nat.add_1_r, Nat.even_succ, <- Nat.negb_even.
      rewrite IHpar in Hne.
      destruct (Nat.even (length (notified ext)));
        destruct Hv as [-> | ->]; simpl in *; congruence. }
  destruct (set_attributes_cases ext direction attributes)
    as [-> | [-> | ->]]; simpl; auto.
Qed.

Lemma negotiated_invariant_witness :
  (vad (gst_rtp_header_extension_rfc6464_set_attributes
          gst_rtp_header_extension_rfc6464_init 0 "vad=off").2 = TRUE \/
   vad (gst_rtp_header_extension_rfc6464_set_attributes
          gst_rtp_header_extension_rfc6464_init 0 "vad=off").2 = FALSE) /\
  Forall (eq "vad"%string)
    (notified (gst_rtp_header_extension_rfc6464_set_attributes
                 gst_rtp_header_extension_rfc6464_init 0 "vad=off").2) /\
  vad (gst_rtp_header_extension_rfc6464_set_attributes
         gst_rtp_header_extension_rfc6464_init 0 "vad=off").2
  = gboolean_of_bool
      (Nat.even
         (length
            (notified (gst_rtp_header_extension_rfc6464_set_attributes
                         gst_rtp_header_extension_rfc6464_init
                         0 "vad=off").2))).
Proof.
  apply (negotiated_invariant
           (gst_rtp_header_extension_rfc6464_set_attributes
              gst_rtp_header_extension_rfc6464_init 0 "vad=off").2).
  apply negotiated_set_attributes, negotiated_init.
Defined.

(** X11: The attribute an element advertises is accepted by every element, and
    the element configured from it advertises the same attribute; when the
    advertising element is in a negotiated state both end with the same
    [vad]. *)
Theorem advertised_attribute_roundtrip
    (sender receiver : GstRTPHeaderExtensionRfc6464)
    (direction : GstRTPHeaderExtensionDirection) :
  negotiated sender ->
  (gst_rtp_header_extension_rfc6464_set_attributes
     receiver direction (vad_attribute sender)).1 = TRUE /\
  vad_attribute
    (gst_rtp_header_extension_rfc6464_set_attributes
       receiver direction (vad_attribute sender)).2
  = vad_attribute sender /\
  vad (gst_rtp_header_extension_rfc6464_set_attributes
         receiver direction (vad_attribute sender)).2
  = vad sender.
Proof.
  intros Hneg.
  destruct (negotiated_vad_canonical sender Hneg) as [Hvad|Hvad].
  - assert (Htext : vad_attribute sender = "vad=on"%string)
      by (unfold vad_attribute; by rewrite Hvad).
    rewrite Htext.
    change (gst_rtp_header_extension_rfc6464_set_attributes
              receiver direction "vad=on")
      with (TRUE, set_vad receiver TRUE).
    cbn [fst snd]. unfold vad_attribute. by rewrite vad_set_vad, Hvad.
  - assert (Htext : vad_attribute sender = "vad=off"%string)
      by (unfold vad_attribute; by rewrite Hvad).
    rewrite Htext.
    change (gst_rtp_header_extension_rfc6464_set_attributes
              receiver direction "vad=off")
      with (TRUE, set_vad receiver FALSE).
    cbn [fst snd]. unfold vad_attribute. by rewrite vad_set_vad, Hvad.
Qed.

Lemma advertised_attribute_roundtrip_witness :
  (gst_rtp_header_extension_rfc6464_set_attributes
     {| vad := FALSE; notified := [] |} 0
     (vad_attribute gst_rtp_header_extension_rfc6464_init)).1 = TRUE /\
  vad_attribute
    (gst_rtp_header_extension_rfc6464_set_attributes
       {| vad := FALSE; notified := [] |} 0
       (vad_attribute gst_rtp_header_extension_rfc6464_init)).2
  = vad_attribute gst_rtp_header_extension_rfc6464_init /\
  vad (gst_rtp_header_extension_rfc6464_set_attributes
         {| vad := FALSE; notified := [] |} 0
         (vad_attribute gst_rtp_header_extension_rfc6464_init)).2
  = vad gst_rtp_header_extension_rfc6464_init.
Proof.
  apply (advertised_attribute_roundtrip
           gst_rtp_header_extension_rfc6464_init
           {| vad := FALSE; notified := [] |} 0).
  apply negotiated_init.
Defined.

(** X12: The readable property and the advertised attribute agree in every
    negotiated state: [get_property] gives [TRUE] for [PROP_VAD] where the
    element advertises ["vad=on"] and [FALSE] where it advertises
    ["vad=off"]; any other property identifier gives no value. *)
Theorem get_property_agrees_with_attribute
    (ext : GstRTPHeaderExtensionRfc6464) (prop_id : Z) :
  negotiated ext ->
  (exists b : bool,
     gst_rtp_header_extension_rfc6464_get_property ext PROP_VAD
       = Some (gboolean_of_bool b) /\
     vad_attribute ext = (if b then "vad=on" else "vad=off")%string) /\
  (prop_id <> PROP_VAD ->
   gst_rtp_header_extension_rfc6464_get_property ext prop_id = None).
Proof.
  intros Hneg. split.
  - unfold gst_rtp_header_extension_rfc6464_get_property, vad_attribute.
    simpl.
    destruct (negotiated_vad_canonical ext Hneg) as [Hvad|Hvad]; rewrite Hvad.
    + by exists true.
    + by exists false.
  - intros Hid. unfold gst_rtp_header_extension_rfc6464_get_property.
    by rewrite (proj2 (Z.eqb_neq _ _) Hid).
Qed.

Lemma get_property_agrees_with_attribute_witness :
  (exists b : bool,
     gst_rtp_header_extension_rfc6464_get_property
       gst_rtp_header_extension_rfc6464_init PROP_VAD
       = Some (gboolean_of_bool b) /\
     vad_attribute gst_rtp_header_extension_rfc6464_init
     = (if b then "vad=on" else "vad=off")%string) /\
  (PROP_0 <> PROP_VAD ->
   gst_rtp_header_extension_rfc6464_get_property
     gst_rtp_header_extension_rfc6464_init PROP_0 = None).
Proof.
  apply (get_property_agrees_with_attribute
           gst_rtp_header_extension_rfc6464_init PROP_0).
  apply negotiated_init.
Defined.
